(** * The [/report] endpoint of [utils/mock_server.py]

    A shallow embedding of the Flask handler [report] and the properties of
    its response.

    The handler is Python code running inside a web framework.  The embedding
    keeps what the handler itself does:

    - the values it inspects are the Python values produced by decoding a
      JSON document ([pyvalue]);
    - [print] appends a line to the standard output, modelled as a list of
      lines threaded through every computation;
    - a Python exception aborts the [try] block and reaches the
      [except Exception] clause; computations live in the monad [Py], a state
      monad over the output with an exceptional result.

    Library code is not part of the repository.  [request.get_json()] is
    modelled after Werkzeug and Flask: it tests the content type of the
    request, decodes the body, and turns a decoding error into a
    [BadRequest].  The JSON decoder and the debug flag of the application are
    gathered in the class [Runtime], and every statement holds for all of its
    instances; the renderings that only feed [print] ([str] of a [bytes]
    object, [json.dumps]) stay symbolic in the printed [text]. *)

From Stdlib Require Import ZArith String Ascii.
From Stdlib Require Import Floats.SpecFloat.
From stdpp Require Import base option list gmap strings.

Set Warnings "-register-all".

(** ** Python values *)

(** The values [json.loads] builds: [null], [true]/[false], numbers without
    and with a fraction or exponent, strings, arrays and objects.  A Python
    [dict] decoded from JSON has string keys; the handler never iterates over
    it in insertion order (the only traversal is [json.dumps] with
    [sort_keys=True]), so a finite map is an exact model.  Strings are kept as
    their UTF-8 bytes. *)
Inductive pyvalue : Type :=
| PyNone
| PyBool (b : bool)
| PyInt (n : Z)
| PyFloat (x : spec_float)
| PyStr (s : string)
| PyList (l : list pyvalue)
| PyDict (d : gmap string pyvalue).

(** [type(v).__name__] *)
Definition type_name (v : pyvalue) : string :=
  match v with
  | PyNone => "NoneType"
  | PyBool _ => "bool"
  | PyInt _ => "int"
  | PyFloat _ => "float"
  | PyStr _ => "str"
  | PyList _ => "list"
  | PyDict _ => "dict"
  end.

(** [isinstance(v, str)] *)
Definition isinstance_str (v : pyvalue) : bool :=
  match v with
  | PyStr _ => true
  | _ => false
  end.

(** [isinstance(v, int)]: [bool] is a subclass of [int]. *)
Definition isinstance_int (v : pyvalue) : bool :=
  match v with
  | PyInt _ | PyBool _ => true
  | _ => false
  end.

(** [v is None] *)
Definition is_none (v : pyvalue) : bool :=
  match v with
  | PyNone => true
  | _ => false
  end.

(** The truth value of a list: a list is true when it is not empty. *)
Definition nonempty {A : Type} (l : list A) : bool :=
  match l with
  | [] => false
  | _ :: _ => true
  end.

(** [s == v] for a string [s]: a string equals only an equal string. *)
Definition str_eq_value (s : string) (v : pyvalue) : bool :=
  match v with
  | PyStr t => String.eqb s t
  | _ => false
  end.

(** [sub in s] on strings: [sub] occurs in [s] as a substring. *)
Fixpoint str_contains (sub s : string) : bool :=
  String.prefix sub s ||
  match s with
  | EmptyString => false
  | String _ s' => str_contains sub s'
  end.

(** [s.endswith(suffix)] *)
Fixpoint endswith (s suffix : string) : bool :=
  String.eqb suffix s ||
  match s with
  | EmptyString => false
  | String _ s' => endswith s' suffix
  end.

(** ** Exceptions *)

(** The exceptions the handler can meet, all subclasses of [Exception].  A
    [RecursionError] carries the place where the limit was hit. *)
Inductive exn : Type :=
| TypeError (msg : string)
| KeyError (key : string)
| BadRequest (description : string)
| UnsupportedMediaType (description : string)
| RecursionError (where_ : string).

Definition quote : string := "'".

(** [str(e)].  A [KeyError] prints the [repr] of its key (the keys used here
    are plain identifiers); an HTTP exception prints code, name and
    description. *)
Definition str_exn (e : exn) : string :=
  match e with
  | TypeError msg => msg
  | KeyError key => quote +:+ key +:+ quote
  | BadRequest description => "400 Bad Request: " +:+ description
  | UnsupportedMediaType description =>
      "415 Unsupported Media Type: " +:+ description
  | RecursionError where_ => "maximum recursion depth exceeded" +:+ where_
  end.

(** ** Computations: output and exceptions *)

(** What [print] is given.  [json.dumps] is applied to a decoded value only,
    on which it is defined (string keys, no cycle). *)
Inductive text : Type :=
| Str (s : string)
| StrBytes (b : string)          (* str(b) for the bytes b *)
| JsonDumps (v : pyvalue)        (* json.dumps(v, indent=4, sort_keys=True) *)
| Cat (t1 t2 : text).            (* t1 + t2 *)

Inductive result (A : Type) : Type :=
| Returns (a : A)
| Raises (e : exn).
Arguments Returns {A} a.
Arguments Raises {A} e.

(** A computation reads the output written so far and gives a result with the
    output extended by what it printed. *)
Definition Py (A : Type) : Type := list text → result A * list text.

#[export] Instance Py_ret : MRet Py := λ A a out, (Returns a, out).

#[export] Instance Py_bind : MBind Py := λ A B f m out,
  match m out with
  | (Returns a, out') => f a out'
  | (Raises e, out') => (Raises e, out')
  end.

Definition raise {A : Type} (e : exn) : Py A := λ out, (Raises e, out).

(** A call that prints nothing: its result, with the output unchanged. *)
Definition lift {A : Type} (x : result A) : Py A := λ out, (x, out).

(** [print(line)] *)
Definition print (line : text) : Py unit := λ out, (Returns tt, out ++ [line]).

(** [try: body except Exception as e: handler(e)] *)
Definition try_except {A : Type} (body : Py A) (handler : exn → Py A) : Py A :=
  λ out,
  match body out with
  | (Returns a, out') => (Returns a, out')
  | (Raises e, out') => handler e out'
  end.

(** ** Operators on values *)

(** [field in data] *)
Definition py_contains (field : string) (data : pyvalue) : Py bool :=
  match data with
  | PyDict d => mret (bool_decide (is_Some (d !! field)))
  | PyList l => mret (existsb (str_eq_value field) l)
  | PyStr s => mret (str_contains field s)
  | _ => raise (TypeError ("argument of type " +:+ quote +:+ type_name data
                           +:+ quote +:+ " is not iterable"))
  end.

(** [field not in data] *)
Definition py_not_in (field : string) (data : pyvalue) : Py bool :=
  b ← py_contains field data;
  mret (negb b).

(** [data[key]] for a string [key] *)
Definition py_getitem (data : pyvalue) (key : string) : Py pyvalue :=
  match data with
  | PyDict d =>
      match d !! key with
      | Some v => mret v
      | None => raise (KeyError key)
      end
  | PyList _ => raise (TypeError "list indices must be integers or slices, not str")
  | PyStr _ =>
      raise (TypeError ("string indices must be integers, not " +:+ quote
                        +:+ "str" +:+ quote))
  | _ => raise (TypeError (quote +:+ type_name data +:+ quote
                           +:+ " object is not subscriptable"))
  end.

(** [[x for x in l if keep(x)]]: the test runs on the elements from left to
    right and the first exception ends the comprehension. *)
Fixpoint comprehension (keep : string → Py bool) (l : list string) : Py (list string) :=
  match l with
  | [] => mret []
  | x :: l' =>
      b ← keep x;
      rest ← comprehension keep l';
      mret (if b : bool then x :: rest else rest)
  end.

(** ** Requests, responses and the library *)

Record Request : Type := {
  user_agent : string;   (* str(request.user_agent) *)
  mimetype : string;     (* request.mimetype: the content type, in lower case
                            and without its parameters *)
  data : string          (* request.data, the raw body *)
}.

(** What the handler returns: [(jsonify(body), status)]. *)
Record Response : Type := {
  body : pyvalue;
  status : Z
}.

(** What [json.loads] makes of a body. *)
Inductive decoding : Type :=
| Decoded (v : pyvalue)
| DecodeError (msg : string)   (* a ValueError e (JSONDecodeError,
                                  UnicodeDecodeError), with msg = str(e) *)
| TooDeep (where_ : string).    (* RecursionError *)

Class Runtime : Type := {
  (** [json.loads] on the request body *)
  loads : string → decoding;
  (** [current_app.debug]; [app.run(debug=True)] sets it *)
  debug : bool
}.

(** [request.is_json] *)
Definition is_json (r : Request) : bool :=
  String.eqb (mimetype r) "application/json"
  || (String.prefix "application/" (mimetype r) && endswith (mimetype r) "+json").

(** The description of a [BadRequest] made without one. *)
Definition default_description : string :=
  "The browser (or proxy) sent a request that this server could not understand.".

(** [on_json_loading_failed(e)] for a decoding error [e]: Werkzeug raises a
    [BadRequest] that quotes [e]; outside debug mode Flask replaces it by a
    plain one. *)
Definition on_json_loading_failed `{RT : Runtime} (msg : string) : exn :=
  BadRequest (if debug then "Failed to decode JSON object: " +:+ msg
              else default_description).

(** [on_json_loading_failed(None)], for a request that is not JSON. *)
Definition not_json : exn :=
  UnsupportedMediaType
    ("Did not attempt to load JSON data because the request Content-Type was not "
     +:+ quote +:+ "application/json" +:+ quote +:+ ".").

Definition newline : string := String (ascii_of_nat 10) EmptyString.

Definition required_fields : list string := ["hostname"; "uptime"; "memory"; "disk"].

Definition error_body (msg : string) : pyvalue := PyDict {[ "error" := PyStr msg ]}.

Definition message_body (msg : string) : pyvalue := PyDict {[ "message" := PyStr msg ]}.

Section Handler.
Context `{RT : Runtime}.

(** [request.get_json()] with its default arguments ([force=False],
    [silent=False]).  A request whose content type is not JSON is refused
    without decoding.  Otherwise the body is decoded; a [ValueError] of the
    decoder goes to [on_json_loading_failed], any other exception passes. *)
Definition get_json (r : Request) : result pyvalue :=
  if negb (is_json r) then Raises not_json
  else
    match loads (data r) with
    | Decoded v => Returns v
    | DecodeError msg => Raises (on_json_loading_failed msg)
    | TooDeep where_ => Raises (RecursionError where_)
    end.

(** The [try] block of [report]. *)
Definition report_try (r : Request) : Py Response :=
  print (Cat (Str "request.user_agent=") (Str (user_agent r)));;
  print (Cat (Str "request.data=") (StrBytes (data r)));;
  data ← lift (get_json r);
  if is_none data
  then mret {| body := error_body "Invalid JSON"; status := 400 |}
  else
    missing_fields ←
      comprehension (λ field, py_not_in field data) required_fields;
    if nonempty missing_fields
    then mret {| body := error_body ("Missing fields: "
                                     +:+ String.concat ", " missing_fields);
                 status := 400 |}
    else
      hostname ← py_getitem data "hostname";
      invalid ←
        (if negb (isinstance_str hostname) then mret true
         else uptime ← py_getitem data "uptime";
              mret (negb (isinstance_int uptime))) : Py bool;
      if invalid : bool
      then mret {| body := error_body "Invalid field types"; status := 400 |}
      else
        print (Cat (Str ("jsonifyed_data=" +:+ newline)) (JsonDumps data));;
        (mret {| body := message_body "Report received"; status := 201 |}
           : Py Response).

(** [report]: the [try] block with its [except Exception] clause. *)
Definition report (r : Request) : Py Response :=
  try_except (report_try r)
    (λ e, mret {| body := error_body (str_exn e); status := 400 |}).

End Handler.

(** ** Notions used in the statements *)

(** [body.get(key)] on a JSON body. *)
Definition member_of (key : string) (v : pyvalue) : option pyvalue :=
  match v with
  | PyDict d => d !! key
  | _ => None
  end.

(** A status this endpoint may answer with. *)
Definition client_status (resp : Response) : Prop :=
  status resp = 201%Z ∨ status resp = 400%Z.

(** The two lines printed before the body is decoded. *)
Definition logged (r : Request) (out : list text) : list text :=
  (out ++ [Cat (Str "request.user_agent=") (Str (user_agent r))])
  ++ [Cat (Str "request.data=") (StrBytes (data r))].

(** Two computations give the same result whatever has been printed before
    each of them. *)
Definition same_result {A : Type} (m1 m2 : Py A) : Prop :=
  ∀ out1 out2, (m1 out1).1 = (m2 out2).1.

(** Every value [m] returns satisfies [P]. *)
Definition returns_only {A : Type} (P : A → Prop) (m : Py A) : Prop :=
  ∀ out a out', m out = (Returns a, out') → P a.

(** ** Sample requests *)

Module Samples.

Definition dq : string := String (ascii_of_nat 34) EmptyString.

(** A JSON string literal without escapes. *)
Definition lit (s : string) : string := dq +:+ s +:+ dq.

(** A member [key: value] of a JSON object. *)
Definition member (key value : string) : string := lit key +:+ ": " +:+ value.

Definition object (members : list string) : string :=
  "{" +:+ String.concat ", " members +:+ "}".

Definition valid_text : string :=
  object [member "hostname" (lit "web01"); member "uptime" "123";
          member "memory" (lit "2GB"); member "disk" (lit "10GB")].

Definition valid_fields : gmap string pyvalue :=
  <["hostname" := PyStr "web01"]> (<["uptime" := PyInt 123]>
  (<["memory" := PyStr "2GB"]> (<["disk" := PyStr "10GB"]> ∅))).

Definition hostname_only_text : string := object [member "hostname" (lit "web01")].

Definition hostname_only_fields : gmap string pyvalue :=
  <["hostname" := PyStr "web01"]> ∅.

Definition numeric_hostname_text : string :=
  object [member "hostname" "42"; member "uptime" "123";
          member "memory" (lit "x"); member "disk" (lit "y")].

Definition numeric_hostname_fields : gmap string pyvalue :=
  <["hostname" := PyInt 42]> (<["uptime" := PyInt 123]>
  (<["memory" := PyStr "x"]> (<["disk" := PyStr "y"]> ∅))).

Definition boolean_uptime_text : string :=
  object [member "hostname" (lit "web01"); member "uptime" "true";
          member "memory" (lit "2GB"); member "disk" (lit "10GB")].

Definition boolean_uptime_fields : gmap string pyvalue :=
  <["hostname" := PyStr "web01"]> (<["uptime" := PyBool true]>
  (<["memory" := PyStr "2GB"]> (<["disk" := PyStr "10GB"]> ∅))).

Definition extra_keys_text : string :=
  object [member "hostname" (lit "web01"); member "uptime" "123";
          member "memory" (lit "2GB"); member "disk" (lit "10GB");
          member "kernel" (lit "6.1"); member "load" "[0.5, 0.25]"].

Definition half : spec_float := S754_finite false 1 (-1).
Definition quarter : spec_float := S754_finite false 1 (-2).

Definition extras : gmap string pyvalue :=
  <["kernel" := PyStr "6.1"]> (<["load" := PyList [PyFloat half; PyFloat quarter]]> ∅).

(** [uptime] has the wrong type and the other three keys are absent. *)
Definition uptime_only_text : string := object [member "uptime" (lit "soon")].

Definition uptime_only_fields : gmap string pyvalue := <["uptime" := PyStr "soon"]> ∅.

(** An array whose elements are the four field names. *)
Definition names_array_text : string :=
  "[" +:+ String.concat ", " (lit <$> required_fields) +:+ "]".

Definition names_array : list pyvalue := PyStr <$> required_fields.

(** The documents above with their decodings, [null], a number, and a
    string in which the four field names occur. *)
Definition documents : list (string * pyvalue) :=
  [(valid_text, PyDict valid_fields);
   (hostname_only_text, PyDict hostname_only_fields);
   (numeric_hostname_text, PyDict numeric_hostname_fields);
   (boolean_uptime_text, PyDict boolean_uptime_fields);
   (extra_keys_text, PyDict (valid_fields ∪ extras));
   (uptime_only_text, PyDict uptime_only_fields);
   (names_array_text, PyList names_array);
   ("null", PyNone);
   ("7", PyInt 7);
   (lit "hostname uptime memory disk", PyStr "hostname uptime memory disk")].

(** A runtime whose decoder knows the documents above.  The only other body
    used below is the empty one, which is not a JSON document: the decoder
    finds no value at its first character.  The application runs in debug
    mode, as the script starts it. *)
Definition runtime : Runtime := {|
  loads body :=
    match List.find (λ doc, String.eqb (fst doc) body) documents with
    | Some doc => Decoded (snd doc)
    | None => DecodeError "Expecting value: line 1 column 1 (char 0)"
    end;
  debug := true
|}.

Definition post (body : string) : Request :=
  {| user_agent := "curl/8.5.0"; mimetype := "application/json"; data := body |}.

(** The same body sent as plain text. *)
Definition post_text (body : string) : Request :=
  {| user_agent := "curl/8.5.0"; mimetype := "text/plain"; data := body |}.

End Samples.

(** ** Sample bodies that are not objects *)

Module NonObjects.

(** An array that holds one of the four names and a number. *)
Definition partial_array_text : string := "[" +:+ Samples.lit "hostname" +:+ ", 7]".

Definition partial_array : list pyvalue := [PyStr "hostname"; PyInt 7].

(** A string in which one of the four names occurs. *)
Definition partial_string_text : string := Samples.lit "my hostname".

Definition documents : list (string * pyvalue) :=
  [(partial_array_text, PyList partial_array);
   ("[]", PyList []);
   (partial_string_text, PyStr "my hostname")].

Definition runtime : Runtime := {|
  loads body :=
    match List.find (λ doc, String.eqb (fst doc) body) documents with
    | Some doc => Decoded (snd doc)
    | None => DecodeError "Expecting value: line 1 column 1 (char 0)"
    end;
  debug := true
|}.

End NonObjects.

(** ** The scenarios of the specification *)

Example scenario_valid :
  (report (RT := Samples.runtime) (Samples.post Samples.valid_text) []).1
  = Returns {| body := message_body "Report received"; status := 201 |}.
Proof. vm_compute. reflexivity. Qed.

Example scenario_hostname_only :
  (report (RT := Samples.runtime) (Samples.post Samples.hostname_only_text) []).1
  = Returns {| body := error_body "Missing fields: uptime, memory, disk";
               status := 400 |}.
Proof. vm_compute. reflexivity. Qed.

Example scenario_numeric_hostname :
  (report (RT := Samples.runtime) (Samples.post Samples.numeric_hostname_text) []).1
  = Returns {| body := error_body "Invalid field types"; status := 400 |}.
Proof. vm_compute. reflexivity. Qed.

(** ** Running computations *)

Lemma bind_returns {A B : Type} (m : Py A) (f : A → Py B) a out out' :
  m out = (Returns a, out') → (m ≫= f) out = f a out'.
Proof. intros Hm. unfold mbind, Py_bind. by rewrite Hm. Qed.

Lemma bind_raises {A B : Type} (m : Py A) (f : A → Py B) e out out' :
  m out = (Raises e, out') → (m ≫= f) out = (Raises e, out').
Proof. intros Hm. unfold mbind, Py_bind. by rewrite Hm. Qed.

Lemma try_except_returns {A : Type} (m : Py A) h a out out' :
  m out = (Returns a, out') → try_except m h out = (Returns a, out').
Proof. intros Hm. unfold try_except. by rewrite Hm. Qed.

Lemma try_except_raises {A : Type} (m : Py A) h e out out' :
  m out = (Raises e, out') → try_except m h out = h e out'.
Proof. intros Hm. unfold try_except. by rewrite Hm. Qed.

Lemma comprehension_cons (keep : string → Py bool) x l b out out' :
  keep x out = (Returns b, out') →
  comprehension keep (x :: l) out
  = match comprehension keep l out' with
    | (Returns rest, out'') => (Returns (if b then x :: rest else rest), out'')
    | (Raises e, out'') => (Raises e, out'')
    end.
Proof. intros Hk. cbn [comprehension]. by rewrite (bind_returns _ _ _ _ _ Hk). Qed.

Lemma comprehension_raises (keep : string → Py bool) x l e out out' :
  keep x out = (Raises e, out') → comprehension keep (x :: l) out = (Raises e, out').
Proof. intros Hk. cbn [comprehension]. by rewrite (bind_raises _ _ _ _ _ Hk). Qed.

(** On a [dict], the comprehension over [field not in data] is the filter of
    the absent keys and prints nothing. *)
Lemma comprehension_dict (d : gmap string pyvalue) (l : list string) out :
  comprehension (λ field, py_not_in field (PyDict d)) l out
  = (Returns (filter (λ field, d !! field = None) l), out).
Proof.
  induction l as [|x l IH]; [done|].
  rewrite (comprehension_cons _ x l (negb (bool_decide (is_Some (d !! x)))) out out)
    by done.
  rewrite IH, filter_cons. destruct (d !! x) as [v|] eqn:Hx.
  - rewrite bool_decide_eq_true_2 by eauto. cbn. by rewrite decide_False.
  - rewrite bool_decide_eq_false_2 by (by intros [? ?]). cbn. by rewrite decide_True.
Qed.

(** On a list, it keeps the names that are not elements; on a string, the
    names that are not substrings. *)
Lemma comprehension_list (l : list pyvalue) (fields : list string) out :
  comprehension (λ field, py_not_in field (PyList l)) fields out
  = (Returns (filter (λ field, existsb (str_eq_value field) l = false) fields), out).
Proof.
  induction fields as [|x fields IH]; [done|].
  rewrite (comprehension_cons _ x fields (negb (existsb (str_eq_value x) l)) out out)
    by done.
  rewrite IH, filter_cons.
  destruct (existsb (str_eq_value x) l); cbn; [by rewrite decide_False|by rewrite decide_True].
Qed.

Lemma comprehension_str (s : string) (fields : list string) out :
  comprehension (λ field, py_not_in field (PyStr s)) fields out
  = (Returns (filter (λ field, str_contains field s = false) fields), out).
Proof.
  induction fields as [|x fields IH]; [done|].
  rewrite (comprehension_cons _ x fields (negb (str_contains x s)) out out) by done.
  rewrite IH, filter_cons.
  destruct (str_contains x s); cbn; [by rewrite decide_False|by rewrite decide_True].
Qed.

(** No key of [l] is absent exactly when the filter of absent keys is empty. *)
Lemma absent_nil (d : gmap string pyvalue) (l : list string) :
  filter (λ field, d !! field = None) l = [] ↔ ∀ field, field ∈ l → is_Some (d !! field).
Proof.
  split.
  - intros Hnil field Hin. destruct (d !! field) eqn:Hf; [eauto|].
    by destruct (filter_nil_not_elem_of _ _ field Hnil Hf).
  - intros Hall. induction l as [|x l IH]; [done|].
    rewrite filter_cons. destruct (Hall x) as [v Hv]; [left|].
    rewrite decide_False by congruence. apply IH. intros f Hf. apply Hall. by right.
Qed.

(** ** The handler, outcome by outcome *)

Tactic Notation "py_returns" "by" tactic3(tac) := erewrite bind_returns by tac.
Tactic Notation "py_raises" "by" tactic3(tac) := erewrite bind_raises by tac.

Section Outcomes.
Context `{RT : Runtime}.

Lemma get_json_decoded r v out :
  get_json r = Returns v → lift (get_json r) out = (Returns v, out).
Proof. intros Hv. unfold lift. by rewrite Hv. Qed.

Lemma get_json_failed r e out :
  get_json r = Raises e → lift (get_json r) out = (Raises e, out).
Proof. intros Hv. unfold lift. by rewrite Hv. Qed.

(** [get_json] yields a value exactly for a JSON request whose body decodes. *)
Lemma get_json_returns r v :
  get_json r = Returns v ↔ is_json r = true ∧ loads (data r) = Decoded v.
Proof.
  unfold get_json. destruct (is_json r); cbn [negb]; [|by split; [|intros [? _]]].
  destruct (loads (data r)); split; intros H; try done.
  - by injection H as ->.
  - destruct H as [_ [= ->]]. done.
  - by destruct H.
  - by destruct H.
Qed.

(** What [get_json] raises: the refusal of a request that is not JSON, the
    [BadRequest] for a decoding error, or the decoder's [RecursionError]. *)
Lemma get_json_raises r e :
  get_json r = Raises e →
  e = not_json ∨ (∃ msg, e = on_json_loading_failed msg) ∨ (∃ w, e = RecursionError w).
Proof.
  unfold get_json. destruct (is_json r); cbn [negb]; [|intros [= <-]; by left].
  destruct (loads (data r)); intros [= <-]; eauto.
Qed.

Lemma str_exn_get_json r e :
  get_json r = Raises e → str_exn e ≠ "Invalid JSON".
Proof.
  intros [->|[[msg ->]|[w ->]]]%get_json_raises; cbn; done.
Qed.

(** [get_json] raises: the [except] clause answers with the text of the
    exception. *)
Lemma report_undecodable r e out :
  get_json r = Raises e →
  report r out
  = (Returns {| body := error_body (str_exn e); status := 400 |}, logged r out).
Proof.
  intros Hv. unfold report.
  rewrite (try_except_raises _ _ e out (logged r out)); [reflexivity|].
  unfold report_try. do 2 py_returns by reflexivity.
  py_raises by (by apply get_json_failed). reflexivity.
Qed.

(** The body is the document [null]. *)
Lemma report_null r out :
  get_json r = Returns PyNone →
  report r out
  = (Returns {| body := error_body "Invalid JSON"; status := 400 |}, logged r out).
Proof.
  intros Hv. unfold report. apply try_except_returns.
  unfold report_try. do 2 py_returns by reflexivity.
  py_returns by (by apply get_json_decoded). reflexivity.
Qed.

(** An object with an absent required key. *)
Lemma report_missing r d out :
  get_json r = Returns (PyDict d) →
  filter (λ field, d !! field = None) required_fields ≠ [] →
  report r out
  = (Returns {| body := error_body
                  ("Missing fields: " +:+ String.concat ", "
                     (filter (λ field, d !! field = None) required_fields));
                status := 400 |}, logged r out).
Proof.
  intros Hv Hmiss. unfold report. apply try_except_returns.
  unfold report_try. do 2 py_returns by reflexivity.
  py_returns by (by apply get_json_decoded). cbn [is_none].
  py_returns by (apply comprehension_dict).
  destruct (filter _ required_fields); [done|reflexivity].
Qed.

(** An object with the four required keys. *)
Lemma report_present r d h u out :
  get_json r = Returns (PyDict d) →
  (∀ field, field ∈ required_fields → is_Some (d !! field)) →
  d !! "hostname" = Some h → d !! "uptime" = Some u →
  report r out
  = if isinstance_str h && isinstance_int u
    then (Returns {| body := message_body "Report received"; status := 201 |},
          logged r out
          ++ [Cat (Str ("jsonifyed_data=" +:+ newline)) (JsonDumps (PyDict d))])
    else (Returns {| body := error_body "Invalid field types"; status := 400 |},
          logged r out).
Proof.
  intros Hv Hall Hh Hu. apply absent_nil in Hall. unfold report.
  destruct (isinstance_str h) eqn:Hs; [destruct (isinstance_int u) eqn:Hi|];
    cbn [andb]; apply try_except_returns; unfold report_try;
    do 2 py_returns by reflexivity;
    (py_returns by (by apply get_json_decoded)); cbn [is_none];
    (py_returns by (apply comprehension_dict)); rewrite Hall; cbn [nonempty];
    (py_returns by (unfold py_getitem; rewrite Hh; reflexivity));
    rewrite Hs; cbn [negb].
  - py_returns by (py_returns by (unfold py_getitem; rewrite Hu; reflexivity);
                   reflexivity).
    rewrite Hi. reflexivity.
  - py_returns by (py_returns by (unfold py_getitem; rewrite Hu; reflexivity);
                   reflexivity).
    rewrite Hi. reflexivity.
  - py_returns by reflexivity. reflexivity.
Qed.

(** A number or a boolean: the first [in] test raises [TypeError]. *)
Lemma report_scalar r v out :
  get_json r = Returns v →
  match v with PyBool _ | PyInt _ | PyFloat _ => True | _ => False end →
  report r out
  = (Returns {| body := error_body ("argument of type " +:+ quote +:+ type_name v
                                    +:+ quote +:+ " is not iterable");
                status := 400 |}, logged r out).
Proof.
  intros Hv Hscalar. unfold report.
  rewrite (try_except_raises _ _
             (TypeError ("argument of type " +:+ quote +:+ type_name v
                         +:+ quote +:+ " is not iterable")) out (logged r out));
    [reflexivity|].
  unfold report_try. do 2 py_returns by reflexivity.
  py_returns by (by apply get_json_decoded).
  destruct v; try done; cbn [is_none];
    (py_raises by (by apply comprehension_raises)); reflexivity.
Qed.

(** An array: the names that are not elements are reported missing; when
    all four are elements, subscripting the list by a string raises. *)
Lemma report_list r l out :
  get_json r = Returns (PyList l) →
  report r out
  = (Returns
       {| body :=
            let missing :=
              filter (λ field, existsb (str_eq_value field) l = false) required_fields in
            if nonempty missing
            then error_body ("Missing fields: " +:+ String.concat ", " missing)
            else error_body "list indices must be integers or slices, not str";
          status := 400 |}, logged r out).
Proof.
  intros Hv. unfold report. cbv zeta.
  destruct (filter _ required_fields) as [|x missing] eqn:Hmiss; cbn [nonempty].
  - rewrite (try_except_raises _ _
               (TypeError "list indices must be integers or slices, not str")
               out (logged r out)); [reflexivity|].
    unfold report_try. do 2 py_returns by reflexivity.
    py_returns by (by apply get_json_decoded). cbn [is_none].
    py_returns by (apply comprehension_list). rewrite Hmiss. cbn [nonempty].
    py_raises by reflexivity. reflexivity.
  - apply try_except_returns.
    unfold report_try. do 2 py_returns by reflexivity.
    py_returns by (by apply get_json_decoded). cbn [is_none].
    py_returns by (apply comprehension_list). rewrite Hmiss. reflexivity.
Qed.

(** A string: the names that are not substrings are reported missing; when
    all four occur, subscripting the string by a string raises. *)
Lemma report_str r s out :
  get_json r = Returns (PyStr s) →
  report r out
  = (Returns
       {| body :=
            let missing :=
              filter (λ field, str_contains field s = false) required_fields in
            if nonempty missing
            then error_body ("Missing fields: " +:+ String.concat ", " missing)
            else error_body ("string indices must be integers, not " +:+ quote
                             +:+ "str" +:+ quote);
          status := 400 |}, logged r out).
Proof.
  intros Hv. unfold report. cbv zeta.
  destruct (filter _ required_fields) as [|x missing] eqn:Hmiss; cbn [nonempty].
  - rewrite (try_except_raises _ _
               (TypeError ("string indices must be integers, not " +:+ quote
                           +:+ "str" +:+ quote))
               out (logged r out)); [reflexivity|].
    unfold report_try. do 2 py_returns by reflexivity.
    py_returns by (by apply get_json_decoded). cbn [is_none].
    py_returns by (apply comprehension_str). rewrite Hmiss. cbn [nonempty].
    py_raises by reflexivity. reflexivity.
  - apply try_except_returns.
    unfold report_try. do 2 py_returns by reflexivity.
    py_returns by (by apply get_json_decoded). cbn [is_none].
    py_returns by (apply comprehension_str). rewrite Hmiss. reflexivity.
Qed.

End Outcomes.

(** ** Results that ignore the output *)

Create HintDb py discriminated.

Lemma same_result_ret {A : Type} (a : A) : same_result (mret a) (mret a).
Proof. by intros out1 out2. Qed.

Lemma same_result_raise {A : Type} (e : exn) : same_result (raise (A := A) e) (raise e).
Proof. by intros out1 out2. Qed.

Lemma same_result_print (l1 l2 : text) : same_result (print l1) (print l2).
Proof. by intros out1 out2. Qed.

Lemma same_result_bind {A B : Type} (m1 m2 : Py A) (f1 f2 : A → Py B) :
  same_result m1 m2 → (∀ a, same_result (f1 a) (f2 a)) →
  same_result (m1 ≫= f1) (m2 ≫= f2).
Proof.
  intros Hm Hf out1 out2. specialize (Hm out1 out2).
  unfold mbind, Py_bind.
  destruct (m1 out1) as [[a1|e1] o1], (m2 out2) as [[a2|e2] o2];
    simplify_eq/=; [apply Hf|done].
Qed.

Lemma same_result_try_except {A : Type} (m1 m2 : Py A) (h1 h2 : exn → Py A) :
  same_result m1 m2 → (∀ e, same_result (h1 e) (h2 e)) →
  same_result (try_except m1 h1) (try_except m2 h2).
Proof.
  intros Hm Hh out1 out2. specialize (Hm out1 out2).
  unfold try_except.
  destruct (m1 out1) as [[a1|e1] o1], (m2 out2) as [[a2|e2] o2];
    simplify_eq/=; [done|apply Hh].
Qed.

#[export] Hint Resolve same_result_ret same_result_raise same_result_print : py.
#[export] Hint Resolve same_result_bind same_result_try_except : py.

Lemma same_result_py_contains field v : same_result (py_contains field v) (py_contains field v).
Proof. destruct v; cbn; auto with py. Qed.

Lemma same_result_py_getitem v key : same_result (py_getitem v key) (py_getitem v key).
Proof. destruct v; cbn; auto with py. destruct (_ !! _); auto with py. Qed.

#[export] Hint Resolve same_result_py_contains same_result_py_getitem : py.

Lemma same_result_py_not_in field v : same_result (py_not_in field v) (py_not_in field v).
Proof. unfold py_not_in. auto with py. Qed.

Lemma same_result_comprehension (keep : string → Py bool) (l : list string) :
  (∀ x, same_result (keep x) (keep x)) →
  same_result (comprehension keep l) (comprehension keep l).
Proof. intros Hkeep. induction l as [|x l IH]; cbn; auto 6 with py. Qed.

#[export] Hint Resolve same_result_py_not_in same_result_comprehension : py.

Section SameResult.
Context `{RT : Runtime}.

Lemma same_result_lift {A : Type} (x : result A) : same_result (lift x) (lift x).
Proof. by intros out1 out2. Qed.

Lemma get_json_ext r1 r2 :
  mimetype r1 = mimetype r2 → data r1 = data r2 → get_json r1 = get_json r2.
Proof. intros Hmime Hdata. unfold get_json, is_json. by rewrite Hmime, Hdata. Qed.

(** The response depends on what [get_json] makes of the request only: not
    on the user agent, not on what earlier requests left on the output. *)
Lemma same_result_report r1 r2 :
  get_json r1 = get_json r2 → same_result (report r1) (report r2).
Proof.
  intros Hjson. unfold report, report_try.
  apply same_result_try_except; [|auto with py].
  do 2 (apply same_result_bind; [auto with py|intros _]).
  apply same_result_bind; [rewrite Hjson; apply same_result_lift|intros v].
  destruct (is_none v); [auto with py|].
  apply same_result_bind; [auto with py|intros missing].
  destruct (nonempty missing); [auto with py|].
  apply same_result_bind; [auto with py|intros hostname].
  apply same_result_bind.
  - destruct (negb (isinstance_str hostname)); auto with py.
  - intros invalid. destruct invalid; auto with py.
Qed.

End SameResult.

(** ** What a computation can return *)

Lemma returns_only_ret {A : Type} (P : A → Prop) (a : A) :
  P a → returns_only P (mret a).
Proof. intros HP out a' out' [= <- _]. done. Qed.

Lemma returns_only_bind {A B : Type} (P : B → Prop) (m : Py A) (f : A → Py B) :
  (∀ a, returns_only P (f a)) → returns_only P (m ≫= f).
Proof.
  intros Hf out b out'. unfold mbind, Py_bind.
  destruct (m out) as [[a|e] o]; [apply Hf|done].
Qed.

Lemma report_try_status `{RT : Runtime} (r : Request) :
  returns_only client_status (report_try r).
Proof.
  unfold report_try.
  do 3 (apply returns_only_bind; intros ?).
  destruct (is_none _); [apply returns_only_ret; by right|].
  apply returns_only_bind; intros missing.
  destruct (nonempty missing); [apply returns_only_ret; by right|].
  do 2 (apply returns_only_bind; intros ?).
  match goal with |- context [if ?b then _ else _] => destruct b end.
  - apply returns_only_ret; by right.
  - apply returns_only_bind; intros _. apply returns_only_ret; by left.
Qed.

(** ** Bodies and field names *)

Lemma member_of_error_body (msg : string) :
  member_of "error" (error_body msg) = Some (PyStr msg).
Proof. apply lookup_singleton_eq. Qed.

Lemma member_of_message_body (msg : string) :
  member_of "error" (message_body msg) = None.
Proof. by apply lookup_singleton_ne. Qed.

Lemma error_body_inj (msg1 msg2 : string) : error_body msg1 = error_body msg2 → msg1 = msg2.
Proof.
  intros Heq. apply (f_equal (member_of "error")) in Heq.
  rewrite !member_of_error_body in Heq. by injection Heq.
Qed.

Lemma error_body_not_message (msg1 msg2 : string) : error_body msg1 ≠ message_body msg2.
Proof.
  intros Heq. apply (f_equal (member_of "error")) in Heq.
  by rewrite member_of_error_body, member_of_message_body in Heq.
Qed.

Lemma returns_inj (b1 b2 : pyvalue) (s1 s2 : Z) :
  Returns {| body := b1; status := s1 |} = Returns {| body := b2; status := s2 |} →
  b1 = b2 ∧ s1 = s2.
Proof. by intros [= -> ->]. Qed.

Lemma required_fields_present (d : gmap string pyvalue) :
  is_Some (d !! "hostname") → is_Some (d !! "uptime") →
  is_Some (d !! "memory") → is_Some (d !! "disk") →
  ∀ field, field ∈ required_fields → is_Some (d !! field).
Proof.
  intros Hh Hu Hm Hk field Hin. unfold required_fields in Hin.
  repeat (apply elem_of_cons in Hin as [->|Hin]; [done|]).
  by apply elem_of_nil in Hin.
Qed.

Lemma required_fields_absent (d : gmap string pyvalue) (field : string) :
  field ∈ required_fields → d !! field = None →
  filter (λ field, d !! field = None) required_fields ≠ [].
Proof.
  intros Hin Hnone Hnil.
  by destruct (filter_nil_not_elem_of _ _ field Hnil Hnone).
Qed.

(** When [get_json] raises, the answer is not [{"error": "Invalid JSON"}]: the
    text of an HTTP exception starts with its code, that of a
    [RecursionError] with its own words. *)
Lemma report_undecodable_not_invalid_json `{RT : Runtime} (r : Request) (e : exn)
    (out : list text) :
  get_json r = Raises e →
  (report r out).1 ≠ Returns {| body := error_body "Invalid JSON"; status := 400 |}.
Proof.
  intros Hv. rewrite (report_undecodable r e out Hv).
  intros [Heq%error_body_inj _]%returns_inj. by apply (str_exn_get_json r e).
Qed.

(** ** Properties of the endpoint *)

(** C1. When the body decodes to an object whose [hostname] is a string and
    whose [uptime] is an integer, with [memory] and [disk] bound to any
    values, the handler answers 201 with the body
    [{"message": "Report received"}]. *)
Theorem report_accepts_valid `{RT : Runtime} (r : Request) (out : list text)
    (d : gmap string pyvalue) (h : string) (u : Z) (m k : pyvalue) :
  get_json r = Returns (PyDict d) →
  d !! "hostname" = Some (PyStr h) →
  d !! "uptime" = Some (PyInt u) →
  d !! "memory" = Some m →
  d !! "disk" = Some k →
  (report r out).1
  = Returns {| body := message_body "Report received"; status := 201 |}.
Proof.
  intros Hv Hh Hu Hm Hk.
  rewrite (report_present r d (PyStr h) (PyInt u) out Hv); [done| |done|done].
  apply required_fields_present; eauto.
Qed.

Lemma report_accepts_valid_witness :
  (report (RT := Samples.runtime) (Samples.post Samples.valid_text) []).1
  = Returns {| body := message_body "Report received"; status := 201 |}.
Proof.
  apply (report_accepts_valid (RT := Samples.runtime) _ _ Samples.valid_fields
           "web01" 123 (PyStr "2GB") (PyStr "10GB"));
    vm_compute; reflexivity.
Defined.

(** C2. When the body decodes to an object in which a required key is absent,
    the handler answers 400 with the body [{"error": "Missing fields: ..."}]
    whose list holds exactly the absent required keys, in the order
    [hostname], [uptime], [memory], [disk], joined by a comma and a space. *)
Theorem report_missing_fields `{RT : Runtime} (r : Request) (out : list text)
    (d : gmap string pyvalue) :
  get_json r = Returns (PyDict d) →
  (∃ field, field ∈ required_fields ∧ d !! field = None) →
  ∃ missing : list string,
    (report r out).1
    = Returns {| body := error_body ("Missing fields: " +:+ String.concat ", " missing);
                 status := 400 |}
    ∧ (∀ field, field ∈ missing ↔ field ∈ required_fields ∧ d !! field = None)
    ∧ missing `sublist_of` ["hostname"; "uptime"; "memory"; "disk"].
Proof.
  intros Hv (field & Hin & Hnone).
  exists (filter (λ field, d !! field = None) required_fields). split; [|split].
  - by rewrite (report_missing r d out Hv (required_fields_absent d field Hin Hnone)).
  - intros f. rewrite list_elem_of_filter. tauto.
  - apply (sublist_filter (λ field, d !! field = None)).
Qed.

Lemma report_missing_fields_witness :
  ∃ missing : list string,
    (report (RT := Samples.runtime) (Samples.post Samples.hostname_only_text) []).1
    = Returns {| body := error_body ("Missing fields: " +:+ String.concat ", " missing);
                 status := 400 |}
    ∧ (∀ field, field ∈ missing
                ↔ field ∈ required_fields ∧ Samples.hostname_only_fields !! field = None)
    ∧ missing `sublist_of` ["hostname"; "uptime"; "memory"; "disk"].
Proof.
  apply (report_missing_fields (RT := Samples.runtime)).
  - vm_compute; reflexivity.
  - exists "uptime". split; [|vm_compute; reflexivity].
    apply list_elem_of_In. simpl. tauto.
Defined.

(** C3.  The claim holds for the document [null] and fails for a body that
    is not a JSON document.  Lines 13-14 answer [{"error": "Invalid JSON"}]
    when [get_json] yields nothing; called with its defaults, [get_json]
    raises on an undecodable body instead, the [except] clause catches the
    [BadRequest], and the answer carries the text of that exception.  This
    theorem is the handler on such a body: status 400, the text of the
    [BadRequest], never [Invalid JSON]. *)
Theorem report_invalid_json `{RT : Runtime} (r : Request) (out : list text)
    (msg : string) :
  is_json r = true →
  loads (data r) = DecodeError msg →
  (report r out).1
  = Returns {| body := error_body
                 ("400 Bad Request: "
                  +:+ (if debug then "Failed to decode JSON object: " +:+ msg
                       else default_description));
               status := 400 |}
  ∧ (report r out).1
    ≠ Returns {| body := error_body "Invalid JSON"; status := 400 |}.
Proof.
  intros Hjson Hdec.
  assert (Hv : get_json r = Raises (on_json_loading_failed msg))
    by (unfold get_json; by rewrite Hjson, Hdec).
  split; [by rewrite (report_undecodable r _ out Hv)|].
  by apply (report_undecodable_not_invalid_json r _ out Hv).
Qed.

(** The empty body, sent as JSON to the application in debug mode. *)
Lemma report_invalid_json_witness :
  (report (RT := Samples.runtime) (Samples.post "") []).1
  = Returns {| body := error_body
                 ("400 Bad Request: Failed to decode JSON object: "
                  +:+ "Expecting value: line 1 column 1 (char 0)");
               status := 400 |}
  ∧ (report (RT := Samples.runtime) (Samples.post "") []).1
    ≠ Returns {| body := error_body "Invalid JSON"; status := 400 |}.
Proof.
  apply (report_invalid_json (RT := Samples.runtime) (Samples.post "") []
           "Expecting value: line 1 column 1 (char 0)");
    vm_compute; reflexivity.
Defined.

(** The document [null], sent as JSON, is the body that gets [Invalid JSON]. *)
Example null_response :
  (report (RT := Samples.runtime) (Samples.post "null") []).1
  = Returns {| body := error_body "Invalid JSON"; status := 400 |}.
Proof. vm_compute. reflexivity. Qed.

(** C4, as the code has it.  When the body decodes to an object with the four
    required keys in which [hostname] is not a string, or [uptime] is neither
    an integer nor a boolean, the handler answers 400 with the body
    [{"error": "Invalid field types"}]. *)
Theorem report_invalid_types `{RT : Runtime} (r : Request) (out : list text)
    (d : gmap string pyvalue) (h u : pyvalue) :
  get_json r = Returns (PyDict d) →
  d !! "hostname" = Some h →
  d !! "uptime" = Some u →
  is_Some (d !! "memory") →
  is_Some (d !! "disk") →
  (¬ ∃ s, h = PyStr s) ∨ ((¬ ∃ n, u = PyInt n) ∧ (¬ ∃ b, u = PyBool b)) →
  (report r out).1
  = Returns {| body := error_body "Invalid field types"; status := 400 |}.
Proof.
  intros Hv Hh Hu Hm Hk Hbad.
  rewrite (report_present r d h u out Hv); [| |done|done].
  - destruct Hbad as [Hstr|[Hint Hbool]].
    + destruct h; try done. destruct Hstr; eauto.
    + destruct u; rewrite ?andb_false_r; try done.
      * destruct Hbool; eauto.
      * destruct Hint; eauto.
  - apply required_fields_present; eauto.
Qed.

Lemma report_invalid_types_witness :
  (report (RT := Samples.runtime) (Samples.post Samples.numeric_hostname_text) []).1
  = Returns {| body := error_body "Invalid field types"; status := 400 |}.
Proof.
  apply (report_invalid_types (RT := Samples.runtime) _ _
           Samples.numeric_hostname_fields (PyInt 42) (PyInt 123)).
  - vm_compute; reflexivity.
  - vm_compute; reflexivity.
  - vm_compute; reflexivity.
  - exists (PyStr "x"). vm_compute; reflexivity.
  - exists (PyStr "y"). vm_compute; reflexivity.
  - left. intros [s Hs]. discriminate Hs.
Defined.

(** C4 fails when [uptime] is the JSON boolean [true]: the four keys are
    present, [uptime] is not an integer, and the answer is 201. *)
Lemma report_invalid_types_counterexample :
  get_json (RT := Samples.runtime) (Samples.post Samples.boolean_uptime_text)
  = Returns (PyDict Samples.boolean_uptime_fields)
  ∧ Samples.boolean_uptime_fields !! "hostname" = Some (PyStr "web01")
  ∧ Samples.boolean_uptime_fields !! "uptime" = Some (PyBool true)
  ∧ Samples.boolean_uptime_fields !! "memory" = Some (PyStr "2GB")
  ∧ Samples.boolean_uptime_fields !! "disk" = Some (PyStr "10GB")
  ∧ (¬ ∃ n, PyBool true = PyInt n)
  ∧ (report (RT := Samples.runtime) (Samples.post Samples.boolean_uptime_text) []).1
    = Returns {| body := message_body "Report received"; status := 201 |}
  ∧ (report (RT := Samples.runtime) (Samples.post Samples.boolean_uptime_text) []).1
    ≠ Returns {| body := error_body "Invalid field types"; status := 400 |}.
Proof.
  assert (Hv : get_json (RT := Samples.runtime)
                 (Samples.post Samples.boolean_uptime_text)
               = Returns (PyDict Samples.boolean_uptime_fields))
    by (vm_compute; reflexivity).
  assert (Hh : Samples.boolean_uptime_fields !! "hostname" = Some (PyStr "web01"))
    by (vm_compute; reflexivity).
  assert (Hu : Samples.boolean_uptime_fields !! "uptime" = Some (PyBool true))
    by (vm_compute; reflexivity).
  assert (Hm : Samples.boolean_uptime_fields !! "memory" = Some (PyStr "2GB"))
    by (vm_compute; reflexivity).
  assert (Hk : Samples.boolean_uptime_fields !! "disk" = Some (PyStr "10GB"))
    by (vm_compute; reflexivity).
  repeat (split; [done|]).
  split; [by intros [n Hn]|].
  rewrite (report_present (RT := Samples.runtime) _ _ _ _ [] Hv
             (required_fields_present _ (mk_is_Some _ _ Hh) (mk_is_Some _ _ Hu)
                (mk_is_Some _ _ Hm) (mk_is_Some _ _ Hk)) Hh Hu).
  split; [reflexivity|]. cbn. intros [= Hbody Hstatus].
Qed.

(** C5. Every request gets a response, and its status is 201 or 400.  When
    the [try] block returns, the handler returns its response; when it raises
    an exception [e], the handler returns 400 with the body
    [{"error": str(e)}]. *)
Theorem report_client_status `{RT : Runtime} (r : Request) (out : list text) :
  (∃ resp out', report r out = (Returns resp, out')
                ∧ (status resp = 201%Z ∨ status resp = 400%Z))
  ∧ match report_try r out with
    | (Returns resp, out') => report r out = (Returns resp, out')
    | (Raises e, out') =>
        report r out
        = (Returns {| body := error_body (str_exn e); status := 400 |}, out')
    end.
Proof.
  destruct (report_try r out) as [[resp|e] out'] eqn:Htry.
  - pose proof (try_except_returns (report_try r)
                  (λ e, mret {| body := error_body (str_exn e); status := 400 |})
                  resp out out' Htry) as Hrep.
    split; [|exact Hrep].
    exists resp, out'. split; [exact Hrep|].
    exact (report_try_status r out resp out' Htry).
  - pose proof (try_except_raises (report_try r)
                  (λ e, mret {| body := error_body (str_exn e); status := 400 |})
                  e out out' Htry) as Hrep.
    split; [|exact Hrep].
    eexists _, out'. split; [exact Hrep|]. by right.
Qed.

(** C6. The presence check comes before the type check: when the body decodes
    to an object in which a required key is absent, the answer is the
    [Missing fields] error and not the [Invalid field types] error, whatever
    the types of the keys that are present. *)
Theorem report_checks_presence_first `{RT : Runtime} (r : Request) (out : list text)
    (d : gmap string pyvalue) :
  get_json r = Returns (PyDict d) →
  (∃ field, field ∈ required_fields ∧ d !! field = None) →
  ∃ missing : list string,
    missing ≠ []
    ∧ (report r out).1
      = Returns {| body := error_body ("Missing fields: " +:+ String.concat ", " missing);
                   status := 400 |}
    ∧ (report r out).1
      ≠ Returns {| body := error_body "Invalid field types"; status := 400 |}.
Proof.
  intros Hv (field & Hin & Hnone).
  pose proof (required_fields_absent d field Hin Hnone) as Hmiss.
  exists (filter (λ field, d !! field = None) required_fields).
  rewrite (report_missing r d out Hv Hmiss).
  split; [done|]. split; [done|].
  by intros [= Heq%error_body_inj].
Qed.

Lemma report_checks_presence_first_witness :
  ∃ missing : list string,
    missing ≠ []
    ∧ (report (RT := Samples.runtime) (Samples.post Samples.uptime_only_text) []).1
      = Returns {| body := error_body ("Missing fields: " +:+ String.concat ", " missing);
                   status := 400 |}
    ∧ (report (RT := Samples.runtime) (Samples.post Samples.uptime_only_text) []).1
      ≠ Returns {| body := error_body "Invalid field types"; status := 400 |}.
Proof.
  apply (report_checks_presence_first (RT := Samples.runtime) _ []
           Samples.uptime_only_fields).
  - vm_compute; reflexivity.
  - exists "hostname". split; [|vm_compute; reflexivity].
    apply list_elem_of_In. simpl. tauto.
Defined.

(** C7, as the code has it.  The response is a function of the body and the
    content type of the request: two requests with the same body and the same
    content type get the same status and body, whatever their user agents and
    whatever earlier requests have printed; no state accumulates. *)
Theorem report_deterministic `{RT : Runtime} (r1 r2 : Request) (out1 out2 : list text) :
  mimetype r1 = mimetype r2 →
  data r1 = data r2 →
  (report r1 out1).1 = (report r2 out2).1.
Proof. intros Hmime Hdata. by apply same_result_report, get_json_ext. Qed.

Lemma report_deterministic_witness :
  (report (RT := Samples.runtime)
     {| user_agent := "curl/8.5.0"; mimetype := "application/json";
        data := Samples.valid_text |} []).1
  = (report (RT := Samples.runtime)
       {| user_agent := "python-requests/2.31"; mimetype := "application/json";
          data := Samples.valid_text |}
       [Str "earlier output"]).1.
Proof. apply (report_deterministic (RT := Samples.runtime)); reflexivity. Defined.

(** C7 fails for the same body sent under two content types: as JSON the valid
    report gets 201, as plain text it gets 400 with the text of the refusal. *)
Lemma report_deterministic_counterexample :
  data (Samples.post Samples.valid_text) = data (Samples.post_text Samples.valid_text)
  ∧ (report (RT := Samples.runtime) (Samples.post Samples.valid_text) []).1
    = Returns {| body := message_body "Report received"; status := 201 |}
  ∧ (report (RT := Samples.runtime) (Samples.post_text Samples.valid_text) []).1
    = Returns {| body := error_body
                   ("415 Unsupported Media Type: Did not attempt to load JSON data "
                    +:+ "because the request Content-Type was not 'application/json'.");
                 status := 400 |}
  ∧ (report (RT := Samples.runtime) (Samples.post Samples.valid_text) []).1
    ≠ (report (RT := Samples.runtime) (Samples.post_text Samples.valid_text) []).1.
Proof.
  assert (Hjson : get_json (RT := Samples.runtime) (Samples.post Samples.valid_text)
                  = Returns (PyDict Samples.valid_fields))
    by (vm_compute; reflexivity).
  assert (Htext : get_json (RT := Samples.runtime) (Samples.post_text Samples.valid_text)
                  = Raises not_json)
    by (vm_compute; reflexivity).
  assert (Hh : Samples.valid_fields !! "hostname" = Some (PyStr "web01"))
    by (vm_compute; reflexivity).
  assert (Hu : Samples.valid_fields !! "uptime" = Some (PyInt 123))
    by (vm_compute; reflexivity).
  assert (Hm : Samples.valid_fields !! "memory" = Some (PyStr "2GB"))
    by (vm_compute; reflexivity).
  assert (Hk : Samples.valid_fields !! "disk" = Some (PyStr "10GB"))
    by (vm_compute; reflexivity).
  rewrite (report_present (RT := Samples.runtime) _ _ _ _ [] Hjson
             (required_fields_present _ (mk_is_Some _ _ Hh) (mk_is_Some _ _ Hu)
                (mk_is_Some _ _ Hm) (mk_is_Some _ _ Hk)) Hh Hu).
  rewrite (report_undecodable (RT := Samples.runtime) _ _ [] Htext).
  cbn [isinstance_str isinstance_int andb fst].
  split; [reflexivity|]. split; [reflexivity|]. split; [reflexivity|].
  by intros [_ Hst]%returns_inj.
Qed.

(** The same request issued twice, the second after the output of the first,
    gets the same response. *)
Lemma report_twice `{RT : Runtime} (r : Request) (out : list text) :
  (report r (report r out).2).1 = (report r out).1.
Proof. by apply same_result_report. Qed.

(** C8. Keys beyond the four required ones are accepted and ignored: a valid
    report extended with any further members gets 201 with the body
    [{"message": "Report received"}]. *)
Theorem report_ignores_extra_keys `{RT : Runtime} (r : Request) (out : list text)
    (d extra : gmap string pyvalue) (h : string) (u : Z) (m k : pyvalue) :
  get_json r = Returns (PyDict (d ∪ extra)) →
  d !! "hostname" = Some (PyStr h) →
  d !! "uptime" = Some (PyInt u) →
  d !! "memory" = Some m →
  d !! "disk" = Some k →
  (report r out).1
  = Returns {| body := message_body "Report received"; status := 201 |}.
Proof.
  intros Hv Hh Hu Hm Hk.
  rewrite (report_present r (d ∪ extra) (PyStr h) (PyInt u) out Hv);
    [done| |by apply lookup_union_Some_l..].
  apply required_fields_present; eexists; by apply lookup_union_Some_l.
Qed.

Lemma report_ignores_extra_keys_witness :
  (report (RT := Samples.runtime) (Samples.post Samples.extra_keys_text) []).1
  = Returns {| body := message_body "Report received"; status := 201 |}.
Proof.
  apply (report_ignores_extra_keys (RT := Samples.runtime) _ _ Samples.valid_fields
           Samples.extras "web01" 123 (PyStr "2GB") (PyStr "10GB"));
    vm_compute; reflexivity.
Defined.

(** C9. A JSON boolean passes the integer check on [uptime]: with a string
    [hostname], [memory] and [disk] present and [uptime] equal to [true] or
    [false], the answer is 201. *)
Theorem report_accepts_boolean_uptime `{RT : Runtime} (r : Request) (out : list text)
    (d : gmap string pyvalue) (h : string) (b : bool) :
  get_json r = Returns (PyDict d) →
  d !! "hostname" = Some (PyStr h) →
  d !! "uptime" = Some (PyBool b) →
  is_Some (d !! "memory") →
  is_Some (d !! "disk") →
  (report r out).1
  = Returns {| body := message_body "Report received"; status := 201 |}.
Proof.
  intros Hv Hh Hu Hm Hk.
  rewrite (report_present r d (PyStr h) (PyBool b) out Hv); [done| |done|done].
  apply required_fields_present; eauto.
Qed.

Lemma report_accepts_boolean_uptime_witness :
  (report (RT := Samples.runtime) (Samples.post Samples.boolean_uptime_text) []).1
  = Returns {| body := message_body "Report received"; status := 201 |}.
Proof.
  apply (report_accepts_boolean_uptime (RT := Samples.runtime) _ _
           Samples.boolean_uptime_fields "web01" true).
  - vm_compute; reflexivity.
  - vm_compute; reflexivity.
  - vm_compute; reflexivity.
  - exists (PyStr "2GB"). vm_compute; reflexivity.
  - exists (PyStr "10GB"). vm_compute; reflexivity.
Defined.

(** C10. When the body decodes to a value that is neither [null] nor an
    object (an array, a string, a number, a boolean), the handler returns a
    response whose status is 400, never 201. *)
Theorem report_rejects_non_object `{RT : Runtime} (r : Request) (out : list text)
    (v : pyvalue) :
  get_json r = Returns v →
  v ≠ PyNone →
  (∀ d, v ≠ PyDict d) →
  ∃ resp out', report r out = (Returns resp, out')
               ∧ status resp = 400%Z ∧ status resp ≠ 201%Z.
Proof.
  intros Hv Hnone Hdict.
  destruct v as [|b|n|x|s|l|d]; [done| | | | | |by destruct (Hdict d)].
  1-3: eexists _, _; split; [by apply report_scalar|done].
  - eexists _, _; split; [by apply report_str|done].
  - eexists _, _; split; [by apply report_list|done].
Qed.

Lemma report_rejects_non_object_witness :
  ∃ resp out',
    report (RT := Samples.runtime) (Samples.post Samples.names_array_text) []
    = (Returns resp, out')
    ∧ status resp = 400%Z ∧ status resp ≠ 201%Z.
Proof.
  apply (report_rejects_non_object (RT := Samples.runtime) _ []
           (PyList Samples.names_array)).
  - vm_compute; reflexivity.
  - discriminate.
  - discriminate.
Defined.

(** The array of the four field names passes the presence test and fails at
    the subscript. *)
Example names_array_response :
  (report (RT := Samples.runtime) (Samples.post Samples.names_array_text) []).1
  = Returns {| body := error_body "list indices must be integers or slices, not str";
               status := 400 |}.
Proof. vm_compute. reflexivity. Qed.

(** A string in which the four names occur does the same. *)
Example names_string_response :
  (report (RT := Samples.runtime)
     (Samples.post (Samples.lit "hostname uptime memory disk")) []).1
  = Returns {| body := error_body "string indices must be integers, not 'str'";
               status := 400 |}.
Proof. vm_compute. reflexivity. Qed.

(** A number fails at the first presence test. *)
Example number_response :
  (report (RT := Samples.runtime) (Samples.post "7") []).1
  = Returns {| body := error_body "argument of type 'int' is not iterable";
               status := 400 |}.
Proof. vm_compute. reflexivity. Qed.

(** ** The [try] block on objects *)

(** An object either lacks a required key or binds all four. *)
Lemma dict_cases (d : gmap string pyvalue) :
  filter (λ field, d !! field = None) required_fields ≠ []
  ∨ ∃ h u m k, d !! "hostname" = Some h ∧ d !! "uptime" = Some u
               ∧ d !! "memory" = Some m ∧ d !! "disk" = Some k.
Proof.
  destruct (d !! "hostname") as [h|] eqn:Hh;
    [|left; apply (required_fields_absent d "hostname"); [set_solver|done]].
  destruct (d !! "uptime") as [u|] eqn:Hu;
    [|left; apply (required_fields_absent d "uptime"); [set_solver|done]].
  destruct (d !! "memory") as [m|] eqn:Hm;
    [|left; apply (required_fields_absent d "memory"); [set_solver|done]].
  destruct (d !! "disk") as [k|] eqn:Hk;
    [|left; apply (required_fields_absent d "disk"); [set_solver|done]].
  right. by exists h, u, m, k.
Qed.

Lemma report_try_missing `{RT : Runtime} r d out :
  get_json r = Returns (PyDict d) →
  filter (λ field, d !! field = None) required_fields ≠ [] →
  report_try r out
  = (Returns {| body := error_body
                  ("Missing fields: " +:+ String.concat ", "
                     (filter (λ field, d !! field = None) required_fields));
                status := 400 |}, logged r out).
Proof.
  intros Hv Hmiss.
  unfold report_try. do 2 py_returns by reflexivity.
  py_returns by (by apply get_json_decoded). cbn [is_none].
  py_returns by (apply comprehension_dict).
  destruct (filter _ required_fields); [done|reflexivity].
Qed.

Lemma report_try_present `{RT : Runtime} r d h u out :
  get_json r = Returns (PyDict d) →
  (∀ field, field ∈ required_fields → is_Some (d !! field)) →
  d !! "hostname" = Some h → d !! "uptime" = Some u →
  report_try r out
  = if isinstance_str h && isinstance_int u
    then (Returns {| body := message_body "Report received"; status := 201 |},
          logged r out
          ++ [Cat (Str ("jsonifyed_data=" +:+ newline)) (JsonDumps (PyDict d))])
    else (Returns {| body := error_body "Invalid field types"; status := 400 |},
          logged r out).
Proof.
  intros Hv Hall Hh Hu. apply absent_nil in Hall.
  unfold report_try. do 2 py_returns by reflexivity.
  py_returns by (by apply get_json_decoded). cbn [is_none].
  py_returns by (apply comprehension_dict). rewrite Hall. cbn [nonempty].
  py_returns by (unfold py_getitem; rewrite Hh; reflexivity).
  destruct (isinstance_str h) eqn:Hs; cbn [negb andb].
  - py_returns by (py_returns by (unfold py_getitem; rewrite Hu; reflexivity);
                   reflexivity).
    destruct (isinstance_int u); reflexivity.
  - py_returns by reflexivity. reflexivity.
Qed.

(** X1. On an object the [try] block always returns: the [except] clause is
    not entered, and the subscripts [data["hostname"]] and [data["uptime"]]
    never raise [KeyError].  The answer is one of the three fixed ones: the
    success message, [Invalid field types], or [Missing fields] with a
    non-empty list of names. *)
Theorem report_try_object_returns `{RT : Runtime} (r : Request) (out : list text)
    (d : gmap string pyvalue) :
  get_json r = Returns (PyDict d) →
  ∃ resp out',
    report_try r out = (Returns resp, out')
    ∧ report r out = (Returns resp, out')
    ∧ (resp = {| body := message_body "Report received"; status := 201 |}
       ∨ resp = {| body := error_body "Invalid field types"; status := 400 |}
       ∨ ∃ missing, missing ≠ []
           ∧ resp = {| body := error_body ("Missing fields: "
                                           +:+ String.concat ", " missing);
                       status := 400 |}).
Proof.
  intros Hv. destruct (dict_cases d) as [Hmiss|(h & u & m & k & Hh & Hu & Hm & Hk)].
  - eexists _, _. split; [by apply report_try_missing|].
    split; [by apply report_missing|]. right; right. eauto.
  - assert (Hall : ∀ field, field ∈ required_fields → is_Some (d !! field))
      by (apply required_fields_present; eauto).
    pose proof (report_try_present r d h u out Hv Hall Hh Hu) as Htry.
    pose proof (report_present r d h u out Hv Hall Hh Hu) as Hrep.
    destruct (isinstance_str h && isinstance_int u);
      eexists _, _; (split; [exact Htry|]); (split; [exact Hrep|]); auto.
Qed.

Lemma report_try_object_returns_witness :
  ∃ resp out',
    report_try (RT := Samples.runtime) (Samples.post Samples.uptime_only_text) []
    = (Returns resp, out')
    ∧ report (RT := Samples.runtime) (Samples.post Samples.uptime_only_text) []
      = (Returns resp, out')
    ∧ (resp = {| body := message_body "Report received"; status := 201 |}
       ∨ resp = {| body := error_body "Invalid field types"; status := 400 |}
       ∨ ∃ missing, missing ≠ []
           ∧ resp = {| body := error_body ("Missing fields: "
                                           +:+ String.concat ", " missing);
                       status := 400 |}).
Proof.
  apply (report_try_object_returns (RT := Samples.runtime) _ []
           Samples.uptime_only_fields).
  vm_compute; reflexivity.
Defined.

(** ** Every outcome at once *)

(** The response and the output for each kind of decoded body, in one
    statement: either the answer is 400 and nothing is printed after the two
    opening lines, or the body is a valid report, the answer is 201 and the
    decoded object is printed. *)
Lemma report_outcome `{RT : Runtime} (r : Request) (out : list text) :
  (∃ msg, report r out
          = (Returns {| body := error_body msg; status := 400 |}, logged r out)
          ∧ ¬ ∃ d h u, get_json r = Returns (PyDict d)
                       ∧ d !! "hostname" = Some (PyStr h)
                       ∧ d !! "uptime" = Some u
                       ∧ isinstance_int u = true
                       ∧ is_Some (d !! "memory") ∧ is_Some (d !! "disk"))
  ∨ (∃ d h u, get_json r = Returns (PyDict d)
              ∧ d !! "hostname" = Some (PyStr h)
              ∧ d !! "uptime" = Some u
              ∧ isinstance_int u = true
              ∧ is_Some (d !! "memory") ∧ is_Some (d !! "disk")
              ∧ report r out
                = (Returns {| body := message_body "Report received"; status := 201 |},
                   logged r out
                   ++ [Cat (Str ("jsonifyed_data=" +:+ newline))
                         (JsonDumps (PyDict d))])).
Proof.
  destruct (get_json r) as [v|e] eqn:Hv.
  - destruct v as [|b|n|x|s|l|d].
    + left. eexists. split; [by apply report_null|]. by intros (? & ? & ? & ? & _).
    + left. eexists. split; [by apply report_scalar|]. by intros (? & ? & ? & ? & _).
    + left. eexists. split; [by apply report_scalar|]. by intros (? & ? & ? & ? & _).
    + left. eexists. split; [by apply report_scalar|]. by intros (? & ? & ? & ? & _).
    + left. rewrite (report_str r s out Hv). cbv zeta.
      destruct (nonempty _); eexists; (split; [reflexivity|]);
        by intros (? & ? & ? & ? & _).
    + left. rewrite (report_list r l out Hv). cbv zeta.
      destruct (nonempty _); eexists; (split; [reflexivity|]);
        by intros (? & ? & ? & ? & _).
    + destruct (dict_cases d) as [Hmiss|(h & u & m & k & Hh & Hu & Hm & Hk)].
      * left. eexists. split; [by apply report_missing|].
        intros (d' & h & u & [= <-] & Hh & Hu & _ & Hm & Hk).
        apply Hmiss, absent_nil, required_fields_present; eauto.
      * assert (Hall : ∀ field, field ∈ required_fields → is_Some (d !! field))
          by (apply required_fields_present; eauto).
        rewrite (report_present r d h u out Hv Hall Hh Hu).
        destruct (isinstance_str h) eqn:Hs; [destruct (isinstance_int u) eqn:Hi|];
          cbn [andb].
        -- right. destruct h; try done. exists d, s, u. eauto 10.
        -- left. eexists. split; [reflexivity|].
           intros (d' & h' & u' & [= <-] & Hh' & Hu' & Hi' & _). congruence.
        -- left. eexists. split; [reflexivity|].
           intros (d' & h' & u' & [= <-] & Hh' & Hu' & Hi' & _).
           rewrite Hh in Hh'. injection Hh' as ->. done.
  - left. eexists. split; [by apply report_undecodable|]. by intros (? & ? & ? & ? & _).
Qed.

Lemma isinstance_int_spec (u : pyvalue) :
  isinstance_int u = true ↔ (∃ n, u = PyInt n) ∨ (∃ b, u = PyBool b).
Proof.
  split.
  - destruct u; try done; eauto.
  - by intros [[n ->]|[b ->]].
Qed.

(** X2. The handler answers 201 exactly when the body decodes to an object
    that binds the four required keys, with a string under [hostname] and an
    integer or a boolean under [uptime]: nothing else is accepted. *)
Theorem report_created_iff_valid `{RT : Runtime} (r : Request) (out : list text) :
  (∃ resp out', report r out = (Returns resp, out') ∧ status resp = 201%Z)
  ↔ ∃ d h u, get_json r = Returns (PyDict d)
             ∧ d !! "hostname" = Some (PyStr h)
             ∧ d !! "uptime" = Some u
             ∧ ((∃ n, u = PyInt n) ∨ (∃ b, u = PyBool b))
             ∧ is_Some (d !! "memory") ∧ is_Some (d !! "disk").
Proof.
  destruct (report_outcome r out)
    as [(msg & Hrep & Hnot)|(d & h & u & Hv & Hh & Hu & Hi & Hm & Hk & Hrep)].
  - split.
    + intros (resp & out' & Hrep' & Hst). rewrite Hrep in Hrep'.
      injection Hrep' as <- _. done.
    + intros (d & h & u & Hv & Hh & Hu & Hi%isinstance_int_spec & Hm & Hk).
      destruct Hnot. exists d, h, u. eauto 10.
  - split.
    + intros _. exists d, h, u. apply isinstance_int_spec in Hi. eauto 10.
    + intros _. eexists _, _. split; [exact Hrep|done].
Qed.

(** X3. Status and body go together: the answer is either 201 with the body
    [{"message": "Report received"}], or 400 with a body of the form
    [{"error": msg}]. *)
Theorem report_body_shape `{RT : Runtime} (r : Request) (out : list text) :
  ∃ resp out',
    report r out = (Returns resp, out')
    ∧ (resp = {| body := message_body "Report received"; status := 201 |}
       ∨ ∃ msg, resp = {| body := error_body msg; status := 400 |}).
Proof.
  destruct (report_outcome r out)
    as [(msg & Hrep & _)|(d & h & u & _ & _ & _ & _ & _ & _ & Hrep)];
    eexists _, _; (split; [exact Hrep|]); eauto.
Qed.

(** X4. What the handler prints.  It only appends to the output.  The line
    with the user agent and the line with the raw body come first, whatever
    the outcome; a 400 prints nothing more, and a 201 prints one more line,
    the dump of the decoded body. *)
Theorem report_output `{RT : Runtime} (r : Request) (out : list text) :
  ∃ resp tail,
    report r out
    = (Returns resp,
       out ++ [Cat (Str "request.user_agent=") (Str (user_agent r));
               Cat (Str "request.data=") (StrBytes (data r))] ++ tail)
    ∧ ((status resp = 400%Z ∧ tail = [])
       ∨ (status resp = 201%Z
          ∧ ∃ v, get_json r = Returns v
                 ∧ tail = [Cat (Str ("jsonifyed_data=" +:+ newline)) (JsonDumps v)])).
Proof.
  assert (Hlog : ∀ tail,
            logged r out ++ tail
            = out ++ [Cat (Str "request.user_agent=") (Str (user_agent r));
                      Cat (Str "request.data=") (StrBytes (data r))] ++ tail).
  { intros tail. unfold logged. by rewrite <- !app_assoc. }
  destruct (report_outcome r out)
    as [(msg & Hrep & _)|(d & h & u & Hv & _ & _ & _ & _ & _ & Hrep)].
  - eexists _, []. rewrite <- Hlog, app_nil_r. split; [exact Hrep|]. by left.
  - eexists _, [_]. rewrite <- Hlog. split; [exact Hrep|]. right. eauto.
Qed.

(** ** Which keys and values the answer depends on *)

Lemma absent_agree (d1 d2 : gmap string pyvalue) (l : list string) :
  (∀ field, field ∈ l → (d1 !! field = None ↔ d2 !! field = None)) →
  filter (λ field, d1 !! field = None) l = filter (λ field, d2 !! field = None) l.
Proof.
  induction l as [|x l IH]; intros Hagree; [done|].
  rewrite !filter_cons, IH by (intros f Hf; apply Hagree; by right).
  destruct (Hagree x) as [H12 H21]; [left|].
  destruct (decide (d1 !! x = None)), (decide (d2 !! x = None)); try done; tauto.
Qed.

Lemma is_Some_iff_None {A : Type} (o1 o2 : option A) :
  (is_Some o1 ↔ is_Some o2) → (o1 = None ↔ o2 = None).
Proof.
  intros [H12 H21]. destruct o1 as [a1|], o2 as [a2|]; try done.
  - destruct H12 as [? ?]; [eauto|done].
  - destruct H21 as [? ?]; [eauto|done].
Qed.

(** X5. Of an object, the handler reads the presence of the four required keys
    and the values under [hostname] and [uptime], nothing else: two objects
    that agree on these get the same answer, whatever they bind [memory] and
    [disk] to and whatever other keys they hold. *)
Theorem report_reads_required_only `{RT : Runtime} (r1 r2 : Request)
    (out1 out2 : list text) (d1 d2 : gmap string pyvalue) :
  get_json r1 = Returns (PyDict d1) →
  get_json r2 = Returns (PyDict d2) →
  d1 !! "hostname" = d2 !! "hostname" →
  d1 !! "uptime" = d2 !! "uptime" →
  (is_Some (d1 !! "memory") ↔ is_Some (d2 !! "memory")) →
  (is_Some (d1 !! "disk") ↔ is_Some (d2 !! "disk")) →
  (report r1 out1).1 = (report r2 out2).1.
Proof.
  intros Hv1 Hv2 Hh Hu Hm Hk.
  assert (Hagree : filter (λ field, d1 !! field = None) required_fields
                   = filter (λ field, d2 !! field = None) required_fields).
  { apply absent_agree. intros field Hin. unfold required_fields in Hin.
    repeat (apply elem_of_cons in Hin as [->|Hin]);
      [by rewrite Hh|by rewrite Hu|by apply is_Some_iff_None..|by apply elem_of_nil in Hin]. }
  destruct (dict_cases d1) as [Hmiss|(h & u & m & k & Hh1 & Hu1 & Hm1 & Hk1)].
  - rewrite (report_missing r1 d1 out1 Hv1 Hmiss).
    rewrite Hagree in Hmiss. rewrite (report_missing r2 d2 out2 Hv2 Hmiss).
    by rewrite Hagree.
  - assert (Hall1 : ∀ field, field ∈ required_fields → is_Some (d1 !! field))
      by (apply required_fields_present; eauto).
    assert (Hall2 : ∀ field, field ∈ required_fields → is_Some (d2 !! field)).
    { apply absent_nil. rewrite <- Hagree. by apply absent_nil. }
    rewrite (report_present r1 d1 h u out1 Hv1 Hall1 Hh1 Hu1).
    rewrite Hh in Hh1. rewrite Hu in Hu1.
    rewrite (report_present r2 d2 h u out2 Hv2 Hall2 Hh1 Hu1).
    by destruct (isinstance_str h && isinstance_int u).
Qed.

Lemma report_reads_required_only_witness :
  (report (RT := Samples.runtime) (Samples.post Samples.valid_text) []).1
  = (report (RT := Samples.runtime) (Samples.post Samples.extra_keys_text) []).1.
Proof.
  apply (report_reads_required_only (RT := Samples.runtime) _ _ [] []
           Samples.valid_fields (Samples.valid_fields ∪ Samples.extras)).
  - vm_compute; reflexivity.
  - vm_compute; reflexivity.
  - vm_compute; reflexivity.
  - vm_compute; reflexivity.
  - split; intros _; eexists; vm_compute; reflexivity.
  - split; intros _; eexists; vm_compute; reflexivity.
Defined.

(** ** Reading the absent keys off the message *)

Lemma append_inj_l (p a b : string) : p +:+ a = p +:+ b → a = b.
Proof. induction p as [|c p IH]; cbn; [done|]. intros [= Heq]. by apply IH. Qed.

Ltac sublists H :=
  repeat match type of H with
         | _ `sublist_of` (_ :: _) =>
             apply sublist_cons_r in H as [H|(? & -> & H)]
         | _ `sublist_of` [] => apply sublist_nil_r in H as ->
         end.

(** Joined by a comma and a space, two selections of the required names that
    read the same are the same. *)
Lemma join_required_inj (l1 l2 : list string) :
  l1 `sublist_of` required_fields → l2 `sublist_of` required_fields →
  String.concat ", " l1 = String.concat ", " l2 → l1 = l2.
Proof.
  unfold required_fields. intros H1 H2.
  sublists H1; sublists H2; cbn; intros Heq; (reflexivity || discriminate Heq).
Qed.

(** X6. The [Missing fields] message identifies the absent keys: an object
    that lacks a required key and any other object get the same answer
    exactly when they lack the same required keys. *)
Theorem report_missing_fields_identify `{RT : Runtime} (r1 r2 : Request)
    (out1 out2 : list text) (d1 d2 : gmap string pyvalue) :
  get_json r1 = Returns (PyDict d1) →
  get_json r2 = Returns (PyDict d2) →
  (∃ field, field ∈ required_fields ∧ d1 !! field = None) →
  (report r1 out1).1 = (report r2 out2).1
  ↔ ∀ field, field ∈ required_fields → (d1 !! field = None ↔ d2 !! field = None).
Proof.
  intros Hv1 Hv2 (field & Hin & Hnone).
  pose proof (required_fields_absent d1 field Hin Hnone) as Hmiss1.
  rewrite (report_missing r1 d1 out1 Hv1 Hmiss1). split.
  - intros Heq.
    assert (Hsame : filter (λ field, d1 !! field = None) required_fields
                    = filter (λ field, d2 !! field = None) required_fields).
    { destruct (dict_cases d2) as [Hmiss2|(h & u & m & k & Hh & Hu & Hm & Hk)].
      - rewrite (report_missing r2 d2 out2 Hv2 Hmiss2) in Heq.
        apply returns_inj in Heq as [Heq _]. apply error_body_inj, append_inj_l in Heq.
        apply join_required_inj; [apply sublist_filter; apply _..|exact Heq].
      - assert (Hall : ∀ field, field ∈ required_fields → is_Some (d2 !! field))
          by (apply required_fields_present; eauto).
        rewrite (report_present r2 d2 h u out2 Hv2 Hall Hh Hu) in Heq.
        destruct (isinstance_str h && isinstance_int u); cbn in Heq.
        + by apply returns_inj in Heq as [_ Heq].
        + apply returns_inj in Heq as [Heq _]. apply error_body_inj in Heq.
          discriminate Heq. }
    intros f Hf.
    pose proof (list_elem_of_filter (λ field, d1 !! field = None) required_fields f) as E1.
    pose proof (list_elem_of_filter (λ field, d2 !! field = None) required_fields f) as E2.
    rewrite Hsame in E1. cbn beta in E1, E2. tauto.
  - intros Hagree. apply absent_agree in Hagree.
    rewrite Hagree in Hmiss1. rewrite (report_missing r2 d2 out2 Hv2 Hmiss1).
    by rewrite Hagree.
Qed.

Lemma report_missing_fields_identify_witness :
  (report (RT := Samples.runtime) (Samples.post Samples.hostname_only_text) []).1
  = (report (RT := Samples.runtime) (Samples.post Samples.uptime_only_text) []).1
  ↔ ∀ field, field ∈ required_fields →
             (Samples.hostname_only_fields !! field = None
              ↔ Samples.uptime_only_fields !! field = None).
Proof.
  apply (report_missing_fields_identify (RT := Samples.runtime)).
  - vm_compute; reflexivity.
  - vm_compute; reflexivity.
  - exists "uptime". split; [|vm_compute; reflexivity].
    apply list_elem_of_In. simpl. tauto.
Defined.

(** ** Arrays and strings as bodies *)

Lemma existsb_str_eq_value (field : string) (l : list pyvalue) :
  existsb (str_eq_value field) l = true ↔ PyStr field ∈ l.
Proof.
  rewrite existsb_exists. split.
  - intros (v & Hin & Heq). destruct v; try done.
    apply String.eqb_eq in Heq as ->. by apply list_elem_of_In.
  - intros Hin. exists (PyStr field). split; [by apply list_elem_of_In|].
    apply String.eqb_refl.
Qed.

Lemma prefix_spec (p s : string) :
  String.prefix p s = true ↔ ∃ post, s = p +:+ post.
Proof.
  revert s. induction p as [|a p IH]; intros [|b s]; cbn.
  - split; [by exists EmptyString|done].
  - split; [by exists (String b s)|done].
  - split; [done|by intros [? ?]].
  - destruct (ascii_dec a b) as [->|Hne].
    + rewrite IH. split; intros [post Hpost]; exists post.
      * by rewrite Hpost.
      * by injection Hpost.
    + split; [done|]. intros [post Hpost]. by injection Hpost.
Qed.

(** [str_contains] is the substring test. *)
Lemma str_contains_spec (sub s : string) :
  str_contains sub s = true ↔ ∃ pre post, s = pre +:+ sub +:+ post.
Proof.
  induction s as [|a s IH]; cbn [str_contains]; rewrite orb_true_iff, prefix_spec.
  - split.
    + intros [[post Hpost]|?]; [|done]. by exists EmptyString, post.
    + intros (pre & post & Heq). left. destruct pre; [by exists post|done].
  - rewrite IH. split.
    + intros [[post Hpost]|(pre & post & ->)].
      * by exists EmptyString, post.
      * by exists (String a pre), post.
    + intros (pre & post & Heq). destruct pre as [|c pre].
      * left. by exists post.
      * injection Heq as -> ->. right. by exists pre, post.
Qed.

(** X7. An array as body.  The names reported missing are the required names
    that are not string elements of the array, in declaration order; when the
    four names are elements, the subscript [data["hostname"]] raises and the
    answer carries the text of that [TypeError].  The status is 400 either
    way. *)
Theorem report_array `{RT : Runtime} (r : Request) (out : list text)
    (l : list pyvalue) :
  get_json r = Returns (PyList l) →
  ∃ missing : list string,
    (∀ field, field ∈ missing ↔ field ∈ required_fields ∧ PyStr field ∉ l)
    ∧ missing `sublist_of` ["hostname"; "uptime"; "memory"; "disk"]
    ∧ (report r out).1
      = Returns {| body :=
                     match missing with
                     | [] => error_body "list indices must be integers or slices, not str"
                     | _ :: _ =>
                         error_body ("Missing fields: " +:+ String.concat ", " missing)
                     end;
                   status := 400 |}.
Proof.
  intros Hv.
  exists (filter (λ field, existsb (str_eq_value field) l = false) required_fields).
  split; [|split].
  - intros field. rewrite list_elem_of_filter, <- existsb_str_eq_value.
    rewrite not_true_iff_false. tauto.
  - apply (sublist_filter (λ field, existsb (str_eq_value field) l = false)).
  - rewrite (report_list r l out Hv). cbv zeta.
    by destruct (filter _ required_fields).
Qed.

Lemma report_array_witness :
  ∃ missing : list string,
    (∀ field, field ∈ missing
              ↔ field ∈ required_fields ∧ PyStr field ∉ NonObjects.partial_array)
    ∧ missing `sublist_of` ["hostname"; "uptime"; "memory"; "disk"]
    ∧ (report (RT := NonObjects.runtime)
         (Samples.post NonObjects.partial_array_text) []).1
      = Returns {| body :=
                     match missing with
                     | [] => error_body "list indices must be integers or slices, not str"
                     | _ :: _ =>
                         error_body ("Missing fields: " +:+ String.concat ", " missing)
                     end;
                   status := 400 |}.
Proof.
  apply (report_array (RT := NonObjects.runtime)). vm_compute; reflexivity.
Defined.

Example partial_array_response :
  (report (RT := NonObjects.runtime) (Samples.post NonObjects.partial_array_text) []).1
  = Returns {| body := error_body "Missing fields: uptime, memory, disk";
               status := 400 |}.
Proof. vm_compute. reflexivity. Qed.

Example empty_array_response :
  (report (RT := NonObjects.runtime) (Samples.post "[]") []).1
  = Returns {| body := error_body "Missing fields: hostname, uptime, memory, disk";
               status := 400 |}.
Proof. vm_compute. reflexivity. Qed.

(** X8. A string as body.  When one of the required names does not occur in
    it, the answer is the [Missing fields] error, and the names it lists are
    the required names that do not occur in the string as substrings, in
    declaration order. *)
Theorem report_string `{RT : Runtime} (r : Request) (out : list text) (s : string) :
  get_json r = Returns (PyStr s) →
  (∃ field, field ∈ required_fields ∧ ¬ ∃ pre post, s = pre +:+ field +:+ post) →
  ∃ missing : list string,
    (∀ field, field ∈ missing
              ↔ field ∈ required_fields ∧ ¬ ∃ pre post, s = pre +:+ field +:+ post)
    ∧ missing `sublist_of` ["hostname"; "uptime"; "memory"; "disk"]
    ∧ (report r out).1
      = Returns {| body := error_body ("Missing fields: " +:+ String.concat ", " missing);
                   status := 400 |}.
Proof.
  intros Hv (field & Hin & Hnot).
  assert (Hspec : ∀ f, str_contains f s = false ↔ ¬ ∃ pre post, s = pre +:+ f +:+ post).
  { intros f. rewrite <- str_contains_spec. symmetry. apply not_true_iff_false. }
  exists (filter (λ field, str_contains field s = false) required_fields).
  split; [|split].
  - intros f. rewrite list_elem_of_filter, Hspec. tauto.
  - apply (sublist_filter (λ field, str_contains field s = false)).
  - rewrite (report_str r s out Hv). cbv zeta.
    destruct (filter _ required_fields) eqn:Hfilter; [|done].
    apply Hspec in Hnot.
    by destruct (filter_nil_not_elem_of _ _ field Hfilter Hnot).
Qed.

Lemma report_string_witness :
  ∃ missing : list string,
    (∀ field, field ∈ missing
              ↔ field ∈ required_fields
                ∧ ¬ ∃ pre post, "my hostname" = pre +:+ field +:+ post)
    ∧ missing `sublist_of` ["hostname"; "uptime"; "memory"; "disk"]
    ∧ (report (RT := NonObjects.runtime)
         (Samples.post NonObjects.partial_string_text) []).1
      = Returns {| body := error_body ("Missing fields: " +:+ String.concat ", " missing);
                   status := 400 |}.
Proof.
  apply (report_string (RT := NonObjects.runtime)).
  - vm_compute; reflexivity.
  - exists "disk". split; [apply list_elem_of_In; simpl; tauto|].
    intros Hocc. apply str_contains_spec in Hocc. vm_compute in Hocc. discriminate Hocc.
Defined.

(** ** Reading the cause off the answer *)

(** X9. On an object, the answer is [Invalid field types] exactly when the
    four required keys are present and [hostname] is not a string or [uptime]
    is neither an integer nor a boolean: a client that gets this answer knows
    that no key was missing. *)
Theorem report_invalid_types_iff `{RT : Runtime} (r : Request) (out : list text)
    (d : gmap string pyvalue) :
  get_json r = Returns (PyDict d) →
  (report r out).1 = Returns {| body := error_body "Invalid field types"; status := 400 |}
  ↔ ∃ h u, d !! "hostname" = Some h ∧ d !! "uptime" = Some u
           ∧ is_Some (d !! "memory") ∧ is_Some (d !! "disk")
           ∧ ((¬ ∃ s, h = PyStr s) ∨ ((¬ ∃ n, u = PyInt n) ∧ (¬ ∃ b, u = PyBool b))).
Proof.
  intros Hv. destruct (dict_cases d) as [Hmiss|(h & u & m & k & Hh & Hu & Hm & Hk)].
  - rewrite (report_missing r d out Hv Hmiss). split.
    + intros [Heq _]%returns_inj. apply error_body_inj in Heq. discriminate Heq.
    + intros (h & u & Hh & Hu & Hm & Hk & _).
      destruct Hmiss. apply absent_nil, required_fields_present; eauto.
  - assert (Hall : ∀ field, field ∈ required_fields → is_Some (d !! field))
      by (apply required_fields_present; eauto).
    rewrite (report_present r d h u out Hv Hall Hh Hu). split.
    + intros Heq. exists h, u. repeat (split; [eauto|]).
      destruct h; try (left; by intros [? ?]).
      destruct u; try (right; split; by intros [? ?]);
        cbn in Heq; by apply returns_inj in Heq as [_ ?].
    + intros (h' & u' & Hh' & Hu' & _ & _ & Hbad).
      rewrite Hh in Hh'. rewrite Hu in Hu'. injection Hh' as <-. injection Hu' as <-.
      destruct Hbad as [Hstr|[Hint Hbool]].
      * destruct h; try done. destruct Hstr; eauto.
      * destruct u; rewrite ?andb_false_r; try done.
        -- destruct Hbool; eauto.
        -- destruct Hint; eauto.
Qed.

Lemma report_invalid_types_iff_witness :
  (report (RT := Samples.runtime) (Samples.post Samples.numeric_hostname_text) []).1
  = Returns {| body := error_body "Invalid field types"; status := 400 |}
  ↔ ∃ h u, Samples.numeric_hostname_fields !! "hostname" = Some h
           ∧ Samples.numeric_hostname_fields !! "uptime" = Some u
           ∧ is_Some (Samples.numeric_hostname_fields !! "memory")
           ∧ is_Some (Samples.numeric_hostname_fields !! "disk")
           ∧ ((¬ ∃ s, h = PyStr s) ∨ ((¬ ∃ n, u = PyInt n) ∧ (¬ ∃ b, u = PyBool b))).
Proof.
  apply (report_invalid_types_iff (RT := Samples.runtime)). vm_compute; reflexivity.
Defined.

Lemma report_object_cases `{RT : Runtime} (r : Request) (out : list text)
    (d : gmap string pyvalue) :
  get_json r = Returns (PyDict d) →
  (report r out).1 = Returns {| body := message_body "Report received"; status := 201 |}
  ∨ (report r out).1 = Returns {| body := error_body "Invalid field types"; status := 400 |}
  ∨ ∃ missing,
      (report r out).1
      = Returns {| body := error_body ("Missing fields: " +:+ String.concat ", " missing);
                   status := 400 |}.
Proof.
  intros Hv. destruct (dict_cases d) as [Hmiss|(h & u & m & k & Hh & Hu & Hm & Hk)].
  - right; right. eexists. by rewrite (report_missing r d out Hv Hmiss).
  - assert (Hall : ∀ field, field ∈ required_fields → is_Some (d !! field))
      by (apply required_fields_present; eauto).
    rewrite (report_present r d h u out Hv Hall Hh Hu).
    destruct (isinstance_str h && isinstance_int u); auto.
Qed.

(** X10. [Invalid JSON] is the answer when [get_json] yields [None], that is
    to the document [null] sent as JSON, and to no other request: a request
    that is not JSON, an undecodable body, a body of another type, a rejected
    or an accepted report all get a different answer. *)
Theorem report_invalid_json_iff_null `{RT : Runtime} (r : Request) (out : list text) :
  (report r out).1 = Returns {| body := error_body "Invalid JSON"; status := 400 |}
  ↔ get_json r = Returns PyNone.
Proof.
  split; [|intros Hv; by rewrite (report_null r out Hv)].
  destruct (get_json r) as [v|e] eqn:Hv.
  - destruct v as [|b|n|x|s|l|d]; [done|..].
    1-3: rewrite (report_scalar r _ out Hv I); intros [Heq _]%returns_inj;
         apply error_body_inj in Heq; discriminate Heq.
    + rewrite (report_str r s out Hv). cbv zeta.
      destruct (nonempty _); intros [Heq _]%returns_inj;
        apply error_body_inj in Heq; discriminate Heq.
    + rewrite (report_list r l out Hv). cbv zeta.
      destruct (nonempty _); intros [Heq _]%returns_inj;
        apply error_body_inj in Heq; discriminate Heq.
    + destruct (report_object_cases r out d Hv) as [Hrep|[Hrep|(missing & Hrep)]];
        rewrite Hrep; intros [Heq Hst]%returns_inj; [done|..];
        apply error_body_inj in Heq; discriminate Heq.
  - intros Heq. by destruct (report_undecodable_not_invalid_json r e out Hv).
Qed.
